(** * ZephyrSys C runtime shims: [posix_memalign], [getentropy], [msleep]

    A shallow embedding of [zephyr-sys/src/Stubs.c] and
    [zephyr-sys/src/Time.c].  The three shims are a few lines each; what
    they do is observable only through the C state they touch: the byte and
    pointer cells of memory, the [errno] side channel, and whatever the
    host C library and kernel keep behind [rand], [aligned_alloc] and
    [k_msleep].  The state is threaded explicitly through a small state
    monad; the host primitives, which the sources only forward-declare,
    are the fields of a type class. *)

From Stdlib Require Import ZArith Lia.
From stdpp Require Import base numbers option list gmap.

Local Open Scope Z_scope.

(** ** Values and pointers *)

(** Pointers are addresses; the null pointer is address 0. *)
Definition NULL : Z := 0.

(** Memory is addressed by byte.  A cell holds an [unsigned char], or one
    byte of a stored [void *]: [Vptr p] is the first byte of the object
    representation of the pointer [p] and [Vptr_tail p k] is its byte
    number [k >= 1].  The representation itself is the platform's and is
    kept symbolic. *)
Inductive val : Type :=
| Vbyte (b : Z)
| Vptr (p : Z)
| Vptr_tail (p : Z) (k : Z).

#[global] Instance val_eq_dec : EqDecision val.
Proof. solve_decision. Defined.

(** The bytes [k], [k + 1], ... of the pointer [p] written to the [n] cells
    from [a] on. *)
Fixpoint write_tail (n : nat) (a p k : Z) (m : gmap Z val) : gmap Z val :=
  match n with
  | O => m
  | S n' => write_tail n' (a + 1) p (k + 1) (<[a := Vptr_tail p k]> m)
  end.

(** Do the [n] cells from [a] on hold the bytes [k], [k + 1], ... of the
    pointer [p]? *)
Fixpoint tail_ok (n : nat) (a p k : Z) (m : gmap Z val) : bool :=
  match n with
  | O => true
  | S n' =>
      bool_decide (m !! a = Some (Vptr_tail p k))
      && tail_ok n' (a + 1) p (k + 1) m
  end.

(** ** The host platform

    [Stubs.c] declares [aligned_alloc] and [rand] without defining them
    ("The actual implementation is provided by the Zephyr C library"), and
    [Time.c] wraps the kernel's inline [k_msleep].  [EINVAL] comes from
    [<errno.h>], the width of [size_t] from [<stddef.h>], and
    [ptr_bytes] is [sizeof(void * )].

    - [rand] reads and advances the generator's seed and nothing else;
    - [aligned_alloc alignment size e h] runs on the errno value [e] and the
      host state [h] and yields the pointer, the errno value it leaves and
      the new host state; it allocates but does not write caller memory;
    - [k_msleep ms h] yields the kernel's status and the new host state. *)
Class Host : Type := {
  host_state : Type;
  size_bits : Z;
  size_bits_min : 16 <= size_bits;
  ptr_bytes : Z;
  ptr_bytes_min : 1 <= ptr_bytes;
  EINVAL : Z;
  rand : host_state -> Z * host_state;
  aligned_alloc : Z -> Z -> Z -> host_state -> Z * Z * host_state;
  k_msleep : Z -> host_state -> Z * host_state
}.

(** ** The C state *)

Record World `{Host} : Type := mkWorld {
  mem : gmap Z val;
  errno : Z;
  host : host_state
}.

Arguments mkWorld {_} _ _ _.

(** ** The monad of C statements

    A computation runs on a world and either yields a value and a new world
    or runs out of loop fuel. *)
Definition M `{Host} (A : Type) : Type := World -> option (A * World).

#[global] Instance M_ret `{Host} : MRet M :=
  fun A (a : A) (w : World) => Some (a, w).

#[global] Instance M_bind `{Host} : MBind M :=
  fun A B (k : A -> M B) (c : M A) (w : World) =>
    match c w with
    | Some (a, w') => k a w'
    | None => None
    end.

Section Primitives.
Context `{Host}.

Definition out_of_fuel {A : Type} : M A := fun _ => None.

(** [*a = v], for a one-byte object. *)
Definition store (a : Z) (v : val) : M unit := fun w =>
  Some (tt, mkWorld (<[a := v]> (mem w)) (errno w) (host w)).

(** The [ptr_bytes] cells from [a] on overwritten with the pointer [p]. *)
Definition write_ptr (a p : Z) (m : gmap Z val) : gmap Z val :=
  write_tail (Z.to_nat (ptr_bytes - 1)) (a + 1) p 1 (<[a := Vptr p]> m).

(** The pointer stored in the [ptr_bytes] cells from [a] on, if these cells
    hold all the bytes of one. *)
Definition load_ptr (a : Z) (m : gmap Z val) : option Z :=
  match m !! a with
  | Some (Vptr p) =>
      if tail_ok (Z.to_nat (ptr_bytes - 1)) (a + 1) p 1 m
      then Some p else None
  | _ => None
  end.

(** [*a = p], for a [void *] object: all its [sizeof(void * )] bytes are
    written. *)
Definition store_ptr (a p : Z) : M unit := fun w =>
  Some (tt, mkWorld (write_ptr a p (mem w)) (errno w) (host w)).

(** [errno = e] *)
Definition set_errno (e : Z) : M unit := fun w =>
  Some (tt, mkWorld (mem w) e (host w)).

(** reading [errno] *)
Definition get_errno : M Z := fun w => Some (errno w, w).

(** [rand()] *)
Definition call_rand : M Z := fun w =>
  let '(r, h) := rand (host w) in
  Some (r, mkWorld (mem w) (errno w) h).

(** [aligned_alloc(alignment, size)] *)
Definition call_aligned_alloc (alignment size : Z) : M Z := fun w =>
  let '(p, e, h) := aligned_alloc alignment size (errno w) (host w) in
  Some (p, mkWorld (mem w) e h).

(** [k_msleep(ms)] *)
Definition call_k_msleep (ms : Z) : M Z := fun w =>
  let '(r, h) := k_msleep ms (host w) in
  Some (r, mkWorld (mem w) (errno w) h).

(** ** Integer conversions *)

(** [size_t] arithmetic wraps at [2 ^ size_bits]. *)
Definition size_wrap (z : Z) : Z := z mod 2 ^ size_bits.

(** Conversion of an [int] to [unsigned char]. *)
Definition to_uchar (z : Z) : Z := z mod 256.

(** ** Stubs.c *)

(** [[
    int posix_memalign(void **memptr, const size_t alignment, const size_t size)
    {
      void *p = aligned_alloc(alignment, size);
      if (p) { *memptr = p; return 0; }
      return errno;
    }
    ]] *)
Definition posix_memalign (memptr alignment size : Z) : M Z :=
  p ← call_aligned_alloc alignment size;
  if negb (p =? NULL) then
    store_ptr memptr p;;
    mret 0
  else
    get_errno.

(** The body of the [for] loop of [getentropy], entered with loop counter
    [i]: [[
    for (size_t i = 0; i < length; i++) {
      buf[i] = rand() % 256;
    }
    ]]
    C's [%] on [int] truncates towards zero ([Z.rem]); the assignment
    converts the result to [unsigned char].  One unit of fuel pays for
    one iteration. *)
Fixpoint fill (fuel : nat) (buf length i : Z) : M unit :=
  if i <? length then
    match fuel with
    | O => out_of_fuel
    | S fuel' =>
        r ← call_rand;
        store (buf + i) (Vbyte (to_uchar (Z.rem r 256)));;
        fill fuel' buf length (size_wrap (i + 1))
    end
  else mret tt.

(** [[
    int getentropy(void *buffer, size_t length)
    {
      if (!buffer || length > 256) { errno = EINVAL; return -1; }
      unsigned char *buf = buffer;   // through a cast
      for (size_t i = 0; i < length; i++) { buf[i] = rand() % 256; }
      return 0;
    }
    ]] *)
Definition getentropy (fuel : nat) (buffer length : Z) : M Z :=
  if (buffer =? NULL) || (256 <? length) then
    set_errno EINVAL;;
    mret (-1)
  else
    fill fuel buffer length 0;;
    mret 0.

(** ** Time.c *)

(** [int32_t msleep(int32_t ms) { return k_msleep(ms); }] *)
Definition msleep (ms : Z) : M Z := call_k_msleep ms.

(** ** main.c *)

(** [void zephyr_sys_init(void) { }]: the body is a comment. *)
Definition zephyr_sys_init : M unit := mret tt.

End Primitives.

(** ** Specification vocabulary *)

Section Vocabulary.
Context `{Host}.

(** The generator after [n] calls of [rand]. *)
Fixpoint after_draws (n : nat) (h : host_state) : host_state :=
  match n with
  | O => h
  | S n' => after_draws n' (snd (rand h))
  end.

(** The value returned by call number [n] (counting from 0) of [rand]. *)
Definition nth_draw (n : nat) (h : host_state) : Z :=
  fst (rand (after_draws n h)).

(** The cells [a], [a + 1], ... overwritten with the first [n] draws, each
    reduced modulo 256. *)
Fixpoint write_draws (n : nat) (a : Z) (h : host_state)
    (m : gmap Z val) : gmap Z val :=
  match n with
  | O => m
  | S n' =>
      write_draws n' (a + 1) (snd (rand h))
        (<[a := Vbyte (fst (rand h) mod 256)]> m)
  end.

(** The contents of the [n] cells from address [a] on. *)
Definition cells (a : Z) (n : nat) (w : World) : list (option val) :=
  (fun i => mem w !! (a + Z.of_nat i)) <$> seq 0 n.

(** The statement that a repeated entropy fill does not depend on the
    fills made before it: a second call with the same arguments, made
    right after the first, leaves the same bytes in the buffer. *)
Definition fills_repeat : Prop :=
  forall (fuel : nat) (buffer length : Z) (w w1 w2 : World),
    buffer <> NULL -> 0 <= length <= 256 ->
    getentropy fuel buffer length w = Some (0, w1) ->
    getentropy fuel buffer length w1 = Some (0, w2) ->
    forall i, 0 <= i < length ->
      mem w2 !! (buffer + i) = mem w1 !! (buffer + i).

End Vocabulary.

(** ** A sample host

    A concrete platform on which the shims can be run: the generator is the
    portable [rand] of ISO C (7.22.2.2), seeded with 1; the allocator bumps
    a break pointer inside a fixed arena; as ISO C allows, it answers an
    empty request with a null pointer without touching [errno], and it
    sets [ENOMEM] when the arena is exhausted; the kernel sleeps by
    advancing its uptime. *)
Module SampleHost.

Record state : Type := mkState {
  seed : Z;
  brk : Z;
  heap_end : Z;
  uptime : Z
}.

Definition ENOMEM : Z := 12.

Definition iso_rand (s : state) : Z * state :=
  let next := (seed s * 1103515245 + 12345) mod 2 ^ 32 in
  ((next / 65536) mod 32768, mkState next (brk s) (heap_end s) (uptime s)).

Definition round_up (a alignment : Z) : Z :=
  (a + alignment - 1) / alignment * alignment.

Definition bump_alloc (alignment size e : Z) (s : state) : Z * Z * state :=
  if size =? 0 then (NULL, e, s)
  else
    let p := round_up (brk s) alignment in
    if p + size <=? heap_end s
    then (p, e, mkState (seed s) (p + size) (heap_end s) (uptime s))
    else (NULL, ENOMEM, s).

Definition tick_sleep (ms : Z) (s : state) : Z * state :=
  (0, mkState (seed s) (brk s) (heap_end s) (uptime s + Z.max ms 0)).

Definition size_bits_ok : 16 <= 32 := ltac:(discriminate).

Definition ptr_bytes_ok : 1 <= 4 := ltac:(discriminate).

Definition sample : Host := {|
  host_state := state;
  size_bits := 32;
  size_bits_min := size_bits_ok;
  ptr_bytes := 4;
  ptr_bytes_min := ptr_bytes_ok;
  EINVAL := 22;
  rand := iso_rand;
  aligned_alloc := bump_alloc;
  k_msleep := tick_sleep
|}.

(** The world at boot: empty memory, [errno] clear, default seed, a 4 KiB
    arena. *)
Definition boot : @World sample :=
  @mkWorld sample ∅ 0 (mkState 1 536870912 536875008 0).

(** Addresses used in the examples. *)
Definition slot : Z := 268435456.
Definition buffer : Z := 268435472.

(** The world a fill of four bytes at [buffer] leaves when run at boot,
    and a world with other memory and another [errno] whose generator has
    made the same four draws. *)
Definition after_fill : @World sample :=
  @mkWorld sample
    (@write_draws sample 4 buffer (host boot) (mem boot))
    (errno boot)
    (@after_draws sample 4 (host boot)).

Definition elsewhere : @World sample :=
  @mkWorld sample
    (<[buffer := Vptr 7]> ∅)
    5
    (@after_draws sample 4 (host boot)).

End SampleHost.

(** ** A recording host

    Its allocator never succeeds; it only records the arguments it is
    called with. *)
Module SpyHost.

Definition spy : Host := {|
  host_state := list (Z * Z);
  size_bits := 32;
  size_bits_min := SampleHost.size_bits_ok;
  ptr_bytes := 4;
  ptr_bytes_min := SampleHost.ptr_bytes_ok;
  EINVAL := 22;
  rand := fun log => (0, log);
  aligned_alloc := fun alignment size e log =>
    (NULL, e, (alignment, size) :: log);
  k_msleep := fun _ log => (0, log)
|}.

End SpyHost.

(** * Properties *)

(** ** Arithmetic of the byte conversion *)

Lemma to_uchar_range `{Host} (z : Z) : 0 <= to_uchar z < 256.
Proof. unfold to_uchar. apply Z.mod_pos_bound. lia. Qed.

(** Truncating remainder followed by the conversion to [unsigned char] is
    reduction modulo 256, whatever the sign of the draw. *)
Lemma to_uchar_rem `{Host} (r : Z) : to_uchar (Z.rem r 256) = r mod 256.
Proof.
  unfold to_uchar.
  pose proof (Z.quot_rem' r 256) as E.
  replace (Z.rem r 256) with (r + (- (r ÷ 256)) * 256) by lia.
  apply Z_mod_plus_full.
Qed.

Lemma size_wrap_small `{Host} (z : Z) : 0 <= z < 2 ^ 16 -> size_wrap z = z.
Proof.
  intros Hz. unfold size_wrap. apply Z.mod_small.
  pose proof size_bits_min.
  assert (2 ^ 16 <= 2 ^ size_bits) by (apply Z.pow_le_mono_r; lia).
  lia.
Qed.

(** ** The generator *)

Section Generator.
Context `{Host}.

Lemma after_draws_S (n : nat) (h : host_state) :
  after_draws (S n) h = snd (rand (after_draws n h)).
Proof.
  revert h. induction n as [|n IH]; intros h; [done|].
  change (after_draws (S (S n)) h) with (after_draws (S n) (snd (rand h))).
  by rewrite IH.
Qed.

Lemma after_draws_add (n k : nat) (h : host_state) :
  after_draws (n + k) h = after_draws k (after_draws n h).
Proof.
  revert h. induction n as [|n IH]; intros h; [done|].
  simpl. apply IH.
Qed.

Lemma nth_draw_shift (n k : nat) (h : host_state) :
  nth_draw k (after_draws n h) = nth_draw (n + k) h.
Proof. unfold nth_draw. by rewrite after_draws_add. Qed.

End Generator.

(** ** Memory after a run of draws *)

Section WriteDraws.
Context `{Host}.

Lemma lookup_write_draws_below (n : nat) (a : Z) (h : host_state)
    (m : gmap Z val) (a' : Z) :
  a' < a -> write_draws n a h m !! a' = m !! a'.
Proof.
  revert a h m. induction n as [|n IH]; intros a h m Hlt; [done|].
  simpl. rewrite IH by lia. apply lookup_insert_ne. lia.
Qed.

Lemma lookup_write_draws_above (n : nat) (a : Z) (h : host_state)
    (m : gmap Z val) (a' : Z) :
  a + Z.of_nat n <= a' -> write_draws n a h m !! a' = m !! a'.
Proof.
  revert a h m. induction n as [|n IH]; intros a h m Hge; [done|].
  simpl. rewrite IH by lia. apply lookup_insert_ne. lia.
Qed.

Lemma lookup_write_draws_in (n k : nat) (a : Z) (h : host_state)
    (m : gmap Z val) :
  (k < n)%nat ->
  write_draws n a h m !! (a + Z.of_nat k)
  = Some (Vbyte (nth_draw k h mod 256)).
Proof.
  revert k a h m. induction n as [|n IH]; intros k a h m Hk; [lia|].
  simpl. destruct k as [|k].
  - rewrite lookup_write_draws_below by lia.
    replace (a + Z.of_nat 0) with a by lia.
    by rewrite lookup_insert_eq.
  - replace (a + Z.of_nat (S k)) with (a + 1 + Z.of_nat k) by lia.
    rewrite IH by lia. done.
Qed.

End WriteDraws.

(** ** The loop and the two paths of [getentropy] *)

Section Entropy.
Context `{Host}.

(** With one unit of fuel per remaining iteration the loop terminates,
    having made [length - i] draws and stored them from [buf + i] on. *)
Lemma fill_spec (fuel : nat) (buf length i : Z) (w : World) :
  0 <= i -> length < 2 ^ 16 ->
  (Z.to_nat (length - i) <= fuel)%nat ->
  fill fuel buf length i w
  = Some (tt, mkWorld
                (write_draws (Z.to_nat (length - i)) (buf + i) (host w) (mem w))
                (errno w)
                (after_draws (Z.to_nat (length - i)) (host w))).
Proof.
  revert i w. induction fuel as [|fuel IH]; intros i w Hi Hlen Hfuel.
  - simpl. destruct (Z.ltb_spec i length) as [Hlt|Hge]; [lia|].
    replace (Z.to_nat (length - i)) with O by lia.
    by destruct w.
  - simpl. destruct (Z.ltb_spec i length) as [Hlt|Hge].
    + replace (Z.to_nat (length - i)) with (S (Z.to_nat (length - (i + 1))))
        by lia.
      unfold mbind, M_bind, call_rand, store.
      destruct (rand (host w)) as [r h] eqn:Er. simpl.
      rewrite size_wrap_small by lia.
      rewrite IH by lia. simpl.
      rewrite Er. simpl. rewrite to_uchar_rem.
      by replace (buf + (i + 1)) with (buf + i + 1) by lia.
    + replace (Z.to_nat (length - i)) with O by lia.
      by destruct w.
Qed.

(** The success path in closed form. *)
Lemma getentropy_ok (fuel : nat) (buffer length : Z) (w : World) :
  buffer <> NULL -> 0 <= length <= 256 ->
  (Z.to_nat length <= fuel)%nat ->
  getentropy fuel buffer length w
  = Some (0, mkWorld
               (write_draws (Z.to_nat length) buffer (host w) (mem w))
               (errno w)
               (after_draws (Z.to_nat length) (host w))).
Proof.
  intros Hbuf Hlen Hfuel. unfold getentropy.
  destruct (Z.eqb_spec buffer NULL) as [|_]; [done|].
  destruct (Z.ltb_spec 256 length) as [|_]; [lia|]. simpl.
  unfold mbind, M_bind.
  rewrite fill_spec by lia.
  replace (length - 0) with length by lia.
  by replace (buffer + 0) with buffer by lia.
Qed.

(** The failure path in closed form. *)
Lemma getentropy_invalid (fuel : nat) (buffer length : Z) (w : World) :
  buffer = NULL \/ 256 < length ->
  getentropy fuel buffer length w
  = Some (-1, mkWorld (mem w) EINVAL (host w)).
Proof.
  intros Hbad. unfold getentropy.
  destruct (Z.eqb_spec buffer NULL) as [|Hbuf]; [done|].
  destruct (Z.ltb_spec 256 length) as [|Hlen]; [done|].
  lia.
Qed.

End Entropy.

(** ** Stored pointers *)

Lemma lookup_write_tail_below (n : nat) (a p k : Z) (m : gmap Z val) (a' : Z) :
  a' < a -> write_tail n a p k m !! a' = m !! a'.
Proof.
  revert a k m. induction n as [|n IH]; intros a k m Hlt; [done|].
  simpl. rewrite IH by lia. apply lookup_insert_ne. lia.
Qed.

Lemma lookup_write_tail_above (n : nat) (a p k : Z) (m : gmap Z val) (a' : Z) :
  a + Z.of_nat n <= a' -> write_tail n a p k m !! a' = m !! a'.
Proof.
  revert a k m. induction n as [|n IH]; intros a k m Hge; [done|].
  simpl. rewrite IH by lia. apply lookup_insert_ne. lia.
Qed.

Lemma tail_ok_write_tail (n : nat) (a p k : Z) (m : gmap Z val) :
  tail_ok n a p k (write_tail n a p k m) = true.
Proof.
  revert a k m. induction n as [|n IH]; intros a k m; [done|].
  simpl. rewrite IH, andb_true_r. apply bool_decide_eq_true.
  rewrite lookup_write_tail_below by lia. apply lookup_insert_eq.
Qed.

(** [tail_ok] reads the [n] cells from [a] on and no other. *)
Lemma tail_ok_ext (n : nat) (a p k : Z) (m m' : gmap Z val) :
  (forall j, a <= j < a + Z.of_nat n -> m' !! j = m !! j) ->
  tail_ok n a p k m' = tail_ok n a p k m.
Proof.
  revert a k. induction n as [|n IH]; intros a k Hsame; [done|].
  simpl. rewrite (Hsame a) by lia. f_equal.
  apply IH. intros j Hj. apply Hsame. lia.
Qed.

Section Pointers.
Context `{Host}.

Lemma lookup_write_ptr_head (a p : Z) (m : gmap Z val) :
  write_ptr a p m !! a = Some (Vptr p).
Proof.
  unfold write_ptr. rewrite lookup_write_tail_below by lia.
  apply lookup_insert_eq.
Qed.

(** A pointer store changes the [ptr_bytes] cells of the object only. *)
Lemma lookup_write_ptr_out (a p : Z) (m : gmap Z val) (a' : Z) :
  ~ (a <= a' < a + ptr_bytes) -> write_ptr a p m !! a' = m !! a'.
Proof.
  intros Hout. pose proof ptr_bytes_min. unfold write_ptr.
  destruct (Z.lt_ge_cases a' a) as [Hlt|Hge].
  - rewrite lookup_write_tail_below by lia. apply lookup_insert_ne. lia.
  - rewrite lookup_write_tail_above by lia. apply lookup_insert_ne. lia.
Qed.

Lemma load_ptr_write_ptr (a p : Z) (m : gmap Z val) :
  load_ptr a (write_ptr a p m) = Some p.
Proof.
  unfold load_ptr. rewrite lookup_write_ptr_head.
  unfold write_ptr. by rewrite tail_ok_write_tail.
Qed.

(** [load_ptr] reads the [ptr_bytes] cells of the object and no other. *)
Lemma load_ptr_ext (a : Z) (m m' : gmap Z val) :
  (forall j, a <= j < a + ptr_bytes -> m' !! j = m !! j) ->
  load_ptr a m' = load_ptr a m.
Proof.
  intros Hsame. pose proof ptr_bytes_min. unfold load_ptr.
  rewrite (Hsame a) by lia.
  destruct (m !! a) as [[b|p|p k]|]; try done.
  rewrite (tail_ok_ext _ _ _ _ m m'); [done|].
  intros j Hj. apply Hsame. lia.
Qed.

End Pointers.

(** ** The two paths of [posix_memalign] *)

Section Memalign.
Context `{Host}.

Lemma posix_memalign_allocated (memptr alignment size : Z) (w : World)
    (p e : Z) (h : host_state) :
  aligned_alloc alignment size (errno w) (host w) = (p, e, h) ->
  p <> NULL ->
  posix_memalign memptr alignment size w
  = Some (0, mkWorld (write_ptr memptr p (mem w)) e h).
Proof.
  intros Ea Hp. unfold posix_memalign, mbind, M_bind, call_aligned_alloc.
  rewrite Ea.
  by destruct (Z.eqb_spec p NULL) as [|_].
Qed.

Lemma posix_memalign_refused (memptr alignment size : Z) (w : World)
    (e : Z) (h : host_state) :
  aligned_alloc alignment size (errno w) (host w) = (NULL, e, h) ->
  posix_memalign memptr alignment size w = Some (e, mkWorld (mem w) e h).
Proof.
  intros Ea. unfold posix_memalign, mbind, M_bind, call_aligned_alloc.
  by rewrite Ea.
Qed.

(** [posix_memalign] always returns: it has no loop. *)
Lemma posix_memalign_total (memptr alignment size : Z) (w : World) :
  is_Some (posix_memalign memptr alignment size w).
Proof.
  destruct (aligned_alloc alignment size (errno w) (host w))
    as [[p e] h] eqn:Ea.
  destruct (decide (p = NULL)) as [->|Hp].
  - erewrite posix_memalign_refused by done. by eexists.
  - erewrite posix_memalign_allocated by done. by eexists.
Qed.

End Memalign.

(** On the recording host the log gains exactly the pair the caller
    passed. *)
Lemma posix_memalign_spy (memptr alignment size : Z) (w : @World SpyHost.spy) :
  exists r w',
    @posix_memalign SpyHost.spy memptr alignment size w = Some (r, w') /\
    host w' = (alignment, size) :: host w.
Proof. by eexists _, _. Qed.

(** * Runs on the sample host *)

Section Runs.
Import SampleHost.
#[local] Existing Instance sample.

(** Four bytes at boot: the draws 16838, 5758, 10113, 17515 modulo 256; the
    cells on either side of the buffer stay empty. *)
Example getentropy_boot_4 :
  (fun rw => (rw.1, cells (buffer - 1) 6 rw.2, errno rw.2))
    <$> getentropy 4 buffer 4 boot
  = Some (0, [None; Some (Vbyte 198); Some (Vbyte 126); Some (Vbyte 129);
              Some (Vbyte 107); None], 0).
Proof. reflexivity. Qed.

(** Three units of fuel do not pay for four iterations. *)
Example getentropy_boot_4_short : getentropy 3 buffer 4 boot = None.
Proof. reflexivity. Qed.

Example getentropy_boot_257 :
  (fun rw => (rw.1, cells buffer 2 rw.2, errno rw.2))
    <$> getentropy 0 buffer 257 boot
  = Some (-1, [None; None], 22).
Proof. reflexivity. Qed.

Example getentropy_null :
  (fun rw => (rw.1, errno rw.2)) <$> getentropy 0 NULL 8 boot
  = Some (-1, 22).
Proof. reflexivity. Qed.

(** Alignment 16, size 64: status 0 and an address divisible by 16 in the
    slot. *)
Example posix_memalign_16_64 :
  (fun rw => (rw.1, cells slot 1 rw.2)) <$> posix_memalign slot 16 64 boot
  = Some (0, [Some (Vptr 536870912)]) /\ 536870912 mod 16 = 0.
Proof. split; reflexivity. Qed.

(** The store fills the four bytes of the slot and stops there. *)
Example posix_memalign_16_64_slot :
  (fun rw => (cells (slot - 1) 6 rw.2, load_ptr slot (mem rw.2)))
    <$> posix_memalign slot 16 64 boot
  = Some ([None; Some (Vptr 536870912); Some (Vptr_tail 536870912 1);
           Some (Vptr_tail 536870912 2); Some (Vptr_tail 536870912 3); None],
          Some 536870912).
Proof. reflexivity. Qed.

(** A slot whose last two bytes lie inside the block: a fill of the block
    overwrites them, and the slot no longer reads as a pointer although its
    first cell is intact. *)
Example posix_memalign_slot_clobbered :
  (fun rw => (rw.1, cells 536870910 4 rw.2, load_ptr 536870910 (mem rw.2)))
    <$> (posix_memalign 536870910 16 64;; getentropy 64 536870912 64) boot
  = Some (0, [Some (Vptr 536870912); Some (Vptr_tail 536870912 1);
              Some (Vbyte 198); Some (Vbyte 126)], None).
Proof. reflexivity. Qed.

(** The first fill at boot leaves [after_fill]. *)
Example getentropy_boot_after_fill :
  getentropy 4 buffer 4 boot = Some (0, after_fill).
Proof. reflexivity. Qed.

(** A request larger than the arena: [ENOMEM], slot unwritten. *)
Example posix_memalign_too_large :
  (fun rw => (rw.1, cells slot 1 rw.2)) <$> posix_memalign slot 16 8192 boot
  = Some (ENOMEM, [None]).
Proof. reflexivity. Qed.

Example msleep_10 :
  (fun rw => (rw.1, uptime (host rw.2))) <$> msleep 10 boot = Some (0, 10).
Proof. reflexivity. Qed.

End Runs.

(** * The entropy shim *)

(** C1: for a non-null buffer and a length in [0, 256], [getentropy]
    returns 0; afterwards every cell [buffer + i] with [0 <= i < length]
    holds a byte, and every cell outside that window is as it was.  Fuel of
    [length] iterations is enough for the loop. *)
Theorem getentropy_writes_exactly_length `{Host}
    (fuel : nat) (buffer length : Z) (w : World) :
  buffer <> NULL -> 0 <= length <= 256 ->
  (Z.to_nat length <= fuel)%nat ->
  exists w',
    getentropy fuel buffer length w = Some (0, w') /\
    (forall i, 0 <= i < length ->
       exists b, 0 <= b < 256 /\ mem w' !! (buffer + i) = Some (Vbyte b)) /\
    (forall a, ~ (buffer <= a < buffer + length) ->
       mem w' !! a = mem w !! a).
Proof.
  intros Hbuf Hlen Hfuel. eexists. split; [by apply getentropy_ok|].
  cbn [mem]. split.
  - intros i Hi. exists (nth_draw (Z.to_nat i) (host w) mod 256). split.
    + apply Z.mod_pos_bound. lia.
    + replace i with (Z.of_nat (Z.to_nat i)) at 1 by lia.
      apply lookup_write_draws_in. lia.
  - intros a Ha. destruct (Z.lt_ge_cases a buffer) as [Hlt|Hge].
    + by apply lookup_write_draws_below.
    + apply lookup_write_draws_above. lia.
Qed.

Lemma getentropy_writes_exactly_length_witness :
  (SampleHost.buffer <> NULL /\ 0 <= 4 <= 256 /\ (Z.to_nat 4 <= 4)%nat) /\
  exists w',
    @getentropy SampleHost.sample 4 SampleHost.buffer 4 SampleHost.boot
    = Some (0, w') /\
    (forall i, 0 <= i < 4 ->
       exists b, 0 <= b < 256 /\
         mem w' !! (SampleHost.buffer + i) = Some (Vbyte b)) /\
    (forall a, ~ (SampleHost.buffer <= a < SampleHost.buffer + 4) ->
       mem w' !! a = mem SampleHost.boot !! a).
Proof.
  assert (Hbuf : SampleHost.buffer <> NULL) by discriminate.
  assert (Hlen : 0 <= 4 <= 256) by lia.
  assert (Hfuel : (Z.to_nat 4 <= 4)%nat) by (vm_compute; lia).
  split; [done|].
  exact (@getentropy_writes_exactly_length SampleHost.sample 4
           SampleHost.buffer 4 SampleHost.boot Hbuf Hlen Hfuel).
Defined.

(** C2: with a null buffer (whatever the length) or a length above 256,
    [getentropy] returns -1 with [errno] set to [EINVAL]; memory (and the
    generator) are unchanged.  No fuel is needed. *)
Theorem getentropy_rejects_invalid `{Host}
    (fuel : nat) (buffer length : Z) (w : World) :
  buffer = NULL \/ 256 < length ->
  exists w',
    getentropy fuel buffer length w = Some (-1, w') /\
    errno w' = EINVAL /\
    mem w' = mem w /\
    host w' = host w.
Proof.
  intros Hbad. eexists. split; [by apply getentropy_invalid|done].
Qed.

Lemma getentropy_rejects_invalid_witness :
  (SampleHost.buffer = NULL \/ 256 < 257) /\
  exists w',
    @getentropy SampleHost.sample 0 SampleHost.buffer 257 SampleHost.boot
    = Some (-1, w') /\
    errno w' = 22 /\
    mem w' = mem SampleHost.boot /\
    host w' = host SampleHost.boot.
Proof.
  assert (Hbad : SampleHost.buffer = NULL \/ 256 < 257) by (right; lia).
  split; [done|].
  exact (@getentropy_rejects_invalid SampleHost.sample 0
           SampleHost.buffer 257 SampleHost.boot Hbad).
Defined.

(** C7: on the success path the byte at index [i] is draw number [i] of the
    generator, reduced modulo 256, and the generator is left where exactly
    [length] successive draws put it. *)
Theorem getentropy_bytes_are_draws `{Host}
    (fuel : nat) (buffer length : Z) (w : World) :
  buffer <> NULL -> 0 <= length <= 256 ->
  (Z.to_nat length <= fuel)%nat ->
  exists w',
    getentropy fuel buffer length w = Some (0, w') /\
    (forall i, 0 <= i < length ->
       mem w' !! (buffer + i)
       = Some (Vbyte (nth_draw (Z.to_nat i) (host w) mod 256))) /\
    host w' = after_draws (Z.to_nat length) (host w).
Proof.
  intros Hbuf Hlen Hfuel. eexists. split; [by apply getentropy_ok|].
  cbn [mem host]. split; [|done].
  intros i Hi.
  replace i with (Z.of_nat (Z.to_nat i)) at 1 by lia.
  apply lookup_write_draws_in. lia.
Qed.

Lemma getentropy_bytes_are_draws_witness :
  (SampleHost.buffer <> NULL /\ 0 <= 4 <= 256 /\ (Z.to_nat 4 <= 4)%nat) /\
  exists w',
    @getentropy SampleHost.sample 4 SampleHost.buffer 4 SampleHost.boot
    = Some (0, w') /\
    (forall i, 0 <= i < 4 ->
       mem w' !! (SampleHost.buffer + i)
       = Some (Vbyte (@nth_draw SampleHost.sample (Z.to_nat i)
                        (host SampleHost.boot) mod 256))) /\
    host w' = @after_draws SampleHost.sample (Z.to_nat 4) (host SampleHost.boot).
Proof.
  assert (Hbuf : SampleHost.buffer <> NULL) by discriminate.
  assert (Hlen : 0 <= 4 <= 256) by lia.
  assert (Hfuel : (Z.to_nat 4 <= 4)%nat) by (vm_compute; lia).
  split; [done|].
  exact (@getentropy_bytes_are_draws SampleHost.sample 4
           SampleHost.buffer 4 SampleHost.boot Hbuf Hlen Hfuel).
Defined.

(** C9: with a non-null buffer and length 0, [getentropy] returns 0 and
    leaves the whole world as it found it: no byte written, no draw made.
    The loop is not entered, so any fuel will do. *)
Theorem getentropy_zero_length `{Host}
    (fuel : nat) (buffer : Z) (w : World) :
  buffer <> NULL ->
  getentropy fuel buffer 0 w = Some (0, w).
Proof.
  intros Hbuf. rewrite getentropy_ok by (done || lia).
  by destruct w.
Qed.

Lemma getentropy_zero_length_witness :
  SampleHost.buffer <> NULL /\
  @getentropy SampleHost.sample 0 SampleHost.buffer 0 SampleHost.boot
  = Some (0, SampleHost.boot).
Proof.
  assert (Hbuf : SampleHost.buffer <> NULL) by discriminate.
  split; [done|].
  exact (@getentropy_zero_length SampleHost.sample 0
           SampleHost.buffer SampleHost.boot Hbuf).
Defined.



(** ** Repeated fills *)

(** C5, as stated, fails.  [getentropy] has no variable of its own that
    outlives a call, but the generator behind [rand] does: on the sample host the fill made right
    after another one, with the same arguments, leaves different bytes.
    The first byte is 198 after the first call and 126 after the second. *)
Lemma fills_repeat_fails : ~ @fills_repeat SampleHost.sample.
Proof.
  intros Hrep.
  assert (Hbuf : SampleHost.buffer <> NULL) by discriminate.
  pose proof (@getentropy_ok SampleHost.sample 1 SampleHost.buffer 1
                SampleHost.boot Hbuf ltac:(lia) ltac:(vm_compute; lia)) as E1.
  match type of E1 with
  | _ = Some (_, ?w1) =>
      pose proof (@getentropy_ok SampleHost.sample 1 SampleHost.buffer 1
                    w1 Hbuf ltac:(lia) ltac:(vm_compute; lia)) as E2
  end.
  specialize (Hrep 1%nat SampleHost.buffer 1 SampleHost.boot _ _
                Hbuf ltac:(lia) E1 E2 0 ltac:(lia)).
  vm_compute in Hrep. discriminate.
Qed.

(** C5 (amended): [getentropy] keeps no state of its own; what carries over
    from call to call is the state of the generator, and it alone decides
    the bytes.  Two invocations with the same arguments that are entered
    with the same generator state, [k] draws after some state [h0], write
    the same bytes and leave the same generator state, whatever memory and
    [errno] hold in the two worlds: byte [i] is draw number [k + i] counted
    from [h0], and the generator is left [k + length] draws after [h0]. *)
Theorem getentropy_same_generator_same_bytes `{Host}
    (fuel1 fuel2 : nat) (buffer length : Z) (w1 w2 : World)
    (h0 : host_state) (k : nat) :
  buffer <> NULL -> 0 <= length <= 256 ->
  (Z.to_nat length <= fuel1)%nat -> (Z.to_nat length <= fuel2)%nat ->
  host w1 = after_draws k h0 -> host w2 = after_draws k h0 ->
  exists w1' w2',
    getentropy fuel1 buffer length w1 = Some (0, w1') /\
    getentropy fuel2 buffer length w2 = Some (0, w2') /\
    (forall i, 0 <= i < length ->
       mem w1' !! (buffer + i)
       = Some (Vbyte (nth_draw (k + Z.to_nat i) h0 mod 256)) /\
       mem w2' !! (buffer + i) = mem w1' !! (buffer + i)) /\
    host w1' = after_draws (k + Z.to_nat length) h0 /\
    host w2' = host w1'.
Proof.
  intros Hbuf Hlen Hfuel1 Hfuel2 Hgen1 Hgen2. eexists _, _.
  split; [by apply getentropy_ok|]. split; [by apply getentropy_ok|].
  cbn [mem host]. rewrite Hgen1, Hgen2. split; [|split].
  - intros i Hi.
    replace i with (Z.of_nat (Z.to_nat i)) at 1 3 4 by lia.
    rewrite !lookup_write_draws_in by lia.
    by rewrite nth_draw_shift.
  - by rewrite after_draws_add.
  - done.
Qed.

Lemma getentropy_same_generator_same_bytes_witness :
  (SampleHost.buffer <> NULL /\ 0 <= 4 <= 256 /\
   (Z.to_nat 4 <= 4)%nat /\ (Z.to_nat 4 <= 9)%nat /\
   host SampleHost.after_fill
   = @after_draws SampleHost.sample 4 (host SampleHost.boot) /\
   host SampleHost.elsewhere
   = @after_draws SampleHost.sample 4 (host SampleHost.boot)) /\
  exists w1' w2',
    @getentropy SampleHost.sample 4 SampleHost.buffer 4 SampleHost.after_fill
    = Some (0, w1') /\
    @getentropy SampleHost.sample 9 SampleHost.buffer 4 SampleHost.elsewhere
    = Some (0, w2') /\
    (forall i, 0 <= i < 4 ->
       mem w1' !! (SampleHost.buffer + i)
       = Some (Vbyte (@nth_draw SampleHost.sample (4 + Z.to_nat i)
                        (host SampleHost.boot) mod 256)) /\
       mem w2' !! (SampleHost.buffer + i)
       = mem w1' !! (SampleHost.buffer + i)) /\
    host w1' = @after_draws SampleHost.sample (4 + Z.to_nat 4)
                 (host SampleHost.boot) /\
    host w2' = host w1'.
Proof.
  assert (Hbuf : SampleHost.buffer <> NULL) by discriminate.
  assert (Hlen : 0 <= 4 <= 256) by lia.
  assert (Hfuel1 : (Z.to_nat 4 <= 4)%nat) by (vm_compute; lia).
  assert (Hfuel2 : (Z.to_nat 4 <= 9)%nat) by (vm_compute; lia).
  assert (Hgen1 : host SampleHost.after_fill
                  = @after_draws SampleHost.sample 4 (host SampleHost.boot))
    by reflexivity.
  assert (Hgen2 : host SampleHost.elsewhere
                  = @after_draws SampleHost.sample 4 (host SampleHost.boot))
    by reflexivity.
  split; [done|].
  exact (@getentropy_same_generator_same_bytes SampleHost.sample 4 9
           SampleHost.buffer 4 SampleHost.after_fill SampleHost.elsewhere
           (host SampleHost.boot) 4 Hbuf Hlen Hfuel1 Hfuel2 Hgen1 Hgen2).
Defined.

(** * The aligned-allocation shim *)

(** C3: an empty request on the sample host.  [aligned_alloc] returns the
    null pointer and leaves [errno] at 0; [posix_memalign] then returns
    that 0, the value it documents for a successful allocation, and the
    output slot stays unwritten. *)
Theorem posix_memalign_refused_returns_zero :
  @aligned_alloc SampleHost.sample 16 0 (errno SampleHost.boot)
    (host SampleHost.boot)
  = (NULL, 0, host SampleHost.boot) /\
  @posix_memalign SampleHost.sample SampleHost.slot 16 0 SampleHost.boot
  = Some (0, SampleHost.boot) /\
  mem SampleHost.boot !! SampleHost.slot = None.
Proof. repeat split; reflexivity. Qed.

(** C4: when [aligned_alloc] returns a non-null pointer [p],
    [posix_memalign] returns 0 and the output slot holds [p]: its first
    cell, and the [ptr_bytes] cells of the slot read as a whole.  No cell
    outside the slot changes. *)
Theorem posix_memalign_success `{Host}
    (memptr alignment size : Z) (w : World) (p e : Z) (h : host_state) :
  aligned_alloc alignment size (errno w) (host w) = (p, e, h) ->
  p <> NULL ->
  exists w',
    posix_memalign memptr alignment size w = Some (0, w') /\
    mem w' !! memptr = Some (Vptr p) /\
    load_ptr memptr (mem w') = Some p /\
    (forall a, ~ (memptr <= a < memptr + ptr_bytes) ->
       mem w' !! a = mem w !! a).
Proof.
  intros Ea Hp. eexists. split; [by eapply posix_memalign_allocated|].
  cbn [mem]. split; [|split].
  - apply lookup_write_ptr_head.
  - apply load_ptr_write_ptr.
  - intros a Ha. by apply lookup_write_ptr_out.
Qed.

Lemma posix_memalign_success_witness :
  (@aligned_alloc SampleHost.sample 16 64 (errno SampleHost.boot)
     (host SampleHost.boot)
   = (536870912, 0, SampleHost.mkState 1 536870976 536875008 0) /\
   536870912 <> NULL) /\
  exists w',
    @posix_memalign SampleHost.sample SampleHost.slot 16 64 SampleHost.boot
    = Some (0, w') /\
    mem w' !! SampleHost.slot = Some (Vptr 536870912) /\
    @load_ptr SampleHost.sample SampleHost.slot (mem w') = Some 536870912 /\
    (forall a, ~ (SampleHost.slot <= a < SampleHost.slot + 4) ->
       mem w' !! a = mem SampleHost.boot !! a).
Proof.
  assert (Ea : @aligned_alloc SampleHost.sample 16 64 (errno SampleHost.boot)
                 (host SampleHost.boot)
               = (536870912, 0, SampleHost.mkState 1 536870976 536875008 0))
    by reflexivity.
  assert (Hp : 536870912 <> NULL) by discriminate.
  split; [done|].
  exact (@posix_memalign_success SampleHost.sample SampleHost.slot 16 64
           SampleHost.boot _ _ _ Ea Hp).
Defined.

(** C8: [posix_memalign] checks nothing itself.  For every [alignment] and
    [size] it returns, the host is left exactly as [aligned_alloc alignment
    size] leaves it, and a nonzero result arises only when that call
    returned the null pointer, in which case the result is the [errno]
    value found after the call. *)
Theorem posix_memalign_no_validation `{Host}
    (memptr alignment size : Z) (w : World) :
  exists r w',
    posix_memalign memptr alignment size w = Some (r, w') /\
    (aligned_alloc alignment size (errno w) (host w)).1.2 = errno w' /\
    (aligned_alloc alignment size (errno w) (host w)).2 = host w' /\
    (r <> 0 ->
       (aligned_alloc alignment size (errno w) (host w)).1.1 = NULL /\
       r = errno w').
Proof.
  destruct (aligned_alloc alignment size (errno w) (host w))
    as [[p e] h] eqn:Ea.
  destruct (decide (p = NULL)) as [->|Hp].
  - eexists _, _. split; [by eapply posix_memalign_refused|done].
  - eexists _, _. split; [by eapply posix_memalign_allocated|].
    cbn. repeat split; done.
Qed.

(** * The sleep shim *)

(** C6: [msleep ms] is [k_msleep ms]: the status returned is the kernel's,
    the host is left as the kernel leaves it, and the shim touches neither
    memory nor [errno].  This holds for every argument, in particular every
    signed 32-bit one. *)
Theorem msleep_forwards `{Host} (ms : Z) (w : World) :
  msleep ms w
  = Some ((k_msleep ms (host w)).1,
          mkWorld (mem w) (errno w) (k_msleep ms (host w)).2).
Proof.
  unfold msleep, call_k_msleep.
  by destruct (k_msleep ms (host w)).
Qed.

(** * Further properties of the shims *)

(** ** Memory after two runs of draws *)

Section WriteDrawsCompose.
Context `{Host}.

Lemma write_draws_add (n k : nat) (a : Z) (h : host_state) (m : gmap Z val) :
  write_draws (n + k) a h m
  = write_draws k (a + Z.of_nat n) (after_draws n h) (write_draws n a h m).
Proof.
  revert a h m. induction n as [|n IH]; intros a h m.
  - cbn [Nat.add write_draws after_draws].
    by replace (a + Z.of_nat 0) with a by lia.
  - cbn [Nat.add write_draws after_draws]. rewrite IH.
    by replace (a + 1 + Z.of_nat n) with (a + Z.of_nat (S n)) by lia.
Qed.

Lemma run_seq {A B : Type} (c : M A) (k : M B) (w w1 : World) (a : A) :
  c w = Some (a, w1) -> (c;; k) w = k w1.
Proof. intros E. unfold mbind, M_bind. by rewrite E. Qed.

(** [zephyr_sys_init] returns and changes nothing. *)
Lemma zephyr_sys_init_noop (w : World) : zephyr_sys_init w = Some (tt, w).
Proof. reflexivity. Qed.

End WriteDrawsCompose.

(** ** [getentropy]: termination and status *)

(** X1: for every buffer and every length the loop of [getentropy] needs at
    most 256 iterations, so 256 units of fuel always give a result; the
    result is -1 exactly when the buffer is null or the length exceeds 256,
    and 0 otherwise. *)
Theorem getentropy_terminates_within_256 `{Host}
    (fuel : nat) (buffer length : Z) (w : World) :
  (256 <= fuel)%nat ->
  exists r w',
    getentropy fuel buffer length w = Some (r, w') /\
    (r = 0 \/ r = -1) /\
    (r = -1 <-> buffer = NULL \/ 256 < length).
Proof.
  intros Hfuel.
  destruct (decide (buffer = NULL \/ 256 < length)) as [Hbad|Hgood].
  - eexists _, _. split; [by apply getentropy_invalid|].
    split; [by right|done].
  - assert (Hbuf : buffer <> NULL) by tauto.
    assert (Hlen : length <= 256) by lia.
    eexists 0, _. split.
    + unfold getentropy.
      destruct (Z.eqb_spec buffer NULL) as [|_]; [done|].
      destruct (Z.ltb_spec 256 length) as [|_]; [lia|]. simpl.
      unfold mbind, M_bind. by rewrite fill_spec by lia.
    + split; [by left|]. split; [done|tauto].
Qed.

Lemma getentropy_terminates_within_256_witness :
  (256 <= 256)%nat /\
  exists r w',
    @getentropy SampleHost.sample 256 SampleHost.buffer 300 SampleHost.boot
    = Some (r, w') /\
    (r = 0 \/ r = -1) /\
    (r = -1 <-> SampleHost.buffer = NULL \/ 256 < 300).
Proof.
  assert (Hfuel : (256 <= 256)%nat) by lia.
  split; [done|].
  exact (@getentropy_terminates_within_256 SampleHost.sample 256
           SampleHost.buffer 300 SampleHost.boot Hfuel).
Defined.

(** ** [getentropy]: the stored byte *)

(** X8: the byte stored at index [i] is the low eight bits of draw number
    [i] in two's complement, whatever the sign of the draw: C's truncating
    [% 256] followed by the conversion to [unsigned char] keeps exactly
    those bits. *)
Theorem getentropy_bytes_are_low_bits `{Host}
    (fuel : nat) (buffer length : Z) (w : World) :
  buffer <> NULL -> 0 <= length <= 256 ->
  (Z.to_nat length <= fuel)%nat ->
  exists w',
    getentropy fuel buffer length w = Some (0, w') /\
    forall i, 0 <= i < length ->
      mem w' !! (buffer + i)
      = Some (Vbyte (Z.land (nth_draw (Z.to_nat i) (host w)) 255)).
Proof.
  intros Hbuf Hlen Hfuel. eexists. split; [by apply getentropy_ok|].
  cbn [mem]. intros i Hi.
  replace i with (Z.of_nat (Z.to_nat i)) at 1 by lia.
  rewrite lookup_write_draws_in by lia.
  change 255 with (Z.ones 8). by rewrite Z.land_ones by lia.
Qed.

Lemma getentropy_bytes_are_low_bits_witness :
  (SampleHost.buffer <> NULL /\ 0 <= 4 <= 256 /\ (Z.to_nat 4 <= 4)%nat) /\
  exists w',
    @getentropy SampleHost.sample 4 SampleHost.buffer 4 SampleHost.boot
    = Some (0, w') /\
    forall i, 0 <= i < 4 ->
      mem w' !! (SampleHost.buffer + i)
      = Some (Vbyte (Z.land (@nth_draw SampleHost.sample (Z.to_nat i)
                               (host SampleHost.boot)) 255)).
Proof.
  assert (Hbuf : SampleHost.buffer <> NULL) by discriminate.
  assert (Hlen : 0 <= 4 <= 256) by lia.
  assert (Hfuel : (Z.to_nat 4 <= 4)%nat) by (vm_compute; lia).
  split; [done|].
  exact (@getentropy_bytes_are_low_bits SampleHost.sample 4
           SampleHost.buffer 4 SampleHost.boot Hbuf Hlen Hfuel).
Defined.

(** ** [getentropy] after [getentropy] *)

(** X2: filling [n] bytes at [buffer] and then [m] bytes at [buffer + n]
    leaves the same world (memory, [errno], generator) as one fill of
    [n + m] bytes at [buffer], as long as the total stays within the 256
    byte limit. *)
Theorem getentropy_adjacent_fills `{Host}
    (fuel : nat) (buffer n m : Z) (w : World) :
  buffer <> NULL -> buffer + n <> NULL ->
  0 <= n -> 0 <= m -> n + m <= 256 ->
  (Z.to_nat (n + m) <= fuel)%nat ->
  exists w',
    getentropy fuel buffer (n + m) w = Some (0, w') /\
    (getentropy fuel buffer n;; getentropy fuel (buffer + n) m) w
    = Some (0, w').
Proof.
  intros Hbuf Hbuf' Hn Hm Hnm Hfuel.
  eexists. split; [apply getentropy_ok; (done || lia)|].
  erewrite run_seq by (apply getentropy_ok; (done || lia)).
  rewrite getentropy_ok by (done || lia). cbn [mem errno host].
  rewrite Z2Nat.inj_add by lia.
  rewrite write_draws_add, after_draws_add.
  by rewrite Z2Nat.id by lia.
Qed.

Lemma getentropy_adjacent_fills_witness :
  (SampleHost.buffer <> NULL /\ SampleHost.buffer + 3 <> NULL /\
   0 <= 3 /\ 0 <= 5 /\ 3 + 5 <= 256 /\ (Z.to_nat (3 + 5) <= 8)%nat) /\
  exists w',
    @getentropy SampleHost.sample 8 SampleHost.buffer (3 + 5) SampleHost.boot
    = Some (0, w') /\
    (@getentropy SampleHost.sample 8 SampleHost.buffer 3;;
     @getentropy SampleHost.sample 8 (SampleHost.buffer + 3) 5) SampleHost.boot
    = Some (0, w').
Proof.
  assert (Hbuf : SampleHost.buffer <> NULL) by discriminate.
  assert (Hbuf' : SampleHost.buffer + 3 <> NULL) by discriminate.
  assert (Hn : 0 <= 3) by lia.
  assert (Hm : 0 <= 5) by lia.
  assert (Hnm : 3 + 5 <= 256) by lia.
  assert (Hfuel : (Z.to_nat (3 + 5) <= 8)%nat) by (vm_compute; lia).
  split; [done|].
  exact (@getentropy_adjacent_fills SampleHost.sample 8 SampleHost.buffer
           3 5 SampleHost.boot Hbuf Hbuf' Hn Hm Hnm Hfuel).
Defined.

(** X3: a fill of [n] bytes followed by a shorter fill of [m] bytes of the
    same buffer: the first [m] bytes are the draws [n], ..., [n + m - 1],
    the bytes from [m] to [n - 1] are still those of the first fill, and
    the generator has made [n + m] draws. *)
Theorem getentropy_shorter_refill `{Host}
    (fuel : nat) (buffer n m : Z) (w : World) :
  buffer <> NULL -> 0 <= m <= n -> n <= 256 ->
  (Z.to_nat n <= fuel)%nat ->
  exists w',
    (getentropy fuel buffer n;; getentropy fuel buffer m) w = Some (0, w') /\
    (forall i, 0 <= i < m ->
       mem w' !! (buffer + i)
       = Some (Vbyte (nth_draw (Z.to_nat n + Z.to_nat i) (host w) mod 256))) /\
    (forall i, m <= i < n ->
       mem w' !! (buffer + i)
       = Some (Vbyte (nth_draw (Z.to_nat i) (host w) mod 256))) /\
    host w' = after_draws (Z.to_nat n + Z.to_nat m) (host w).
Proof.
  intros Hbuf Hmn Hn Hfuel. eexists. split.
  { erewrite run_seq by (apply getentropy_ok; (done || lia)).
    apply getentropy_ok; (done || lia). }
  cbn [mem errno host]. split; [|split].
  - intros i Hi.
    replace i with (Z.of_nat (Z.to_nat i)) at 1 by lia.
    rewrite lookup_write_draws_in by lia.
    by rewrite nth_draw_shift.
  - intros i Hi.
    rewrite lookup_write_draws_above by lia.
    replace i with (Z.of_nat (Z.to_nat i)) at 1 by lia.
    apply lookup_write_draws_in. lia.
  - by rewrite after_draws_add.
Qed.

Lemma getentropy_shorter_refill_witness :
  (SampleHost.buffer <> NULL /\ 0 <= 2 <= 4 /\ 4 <= 256 /\
   (Z.to_nat 4 <= 4)%nat) /\
  exists w',
    (@getentropy SampleHost.sample 4 SampleHost.buffer 4;;
     @getentropy SampleHost.sample 4 SampleHost.buffer 2) SampleHost.boot
    = Some (0, w') /\
    (forall i, 0 <= i < 2 ->
       mem w' !! (SampleHost.buffer + i)
       = Some (Vbyte (@nth_draw SampleHost.sample
                        (Z.to_nat 4 + Z.to_nat i)
                        (host SampleHost.boot) mod 256))) /\
    (forall i, 2 <= i < 4 ->
       mem w' !! (SampleHost.buffer + i)
       = Some (Vbyte (@nth_draw SampleHost.sample (Z.to_nat i)
                        (host SampleHost.boot) mod 256))) /\
    host w' = @after_draws SampleHost.sample (Z.to_nat 4 + Z.to_nat 2)
                (host SampleHost.boot).
Proof.
  assert (Hbuf : SampleHost.buffer <> NULL) by discriminate.
  assert (Hmn : 0 <= 2 <= 4) by lia.
  assert (Hn : 4 <= 256) by lia.
  assert (Hfuel : (Z.to_nat 4 <= 4)%nat) by (vm_compute; lia).
  split; [done|].
  exact (@getentropy_shorter_refill SampleHost.sample 4 SampleHost.buffer
           4 2 SampleHost.boot Hbuf Hmn Hn Hfuel).
Defined.



(** ** [posix_memalign]: what a caller can rely on *)

(** X5: whatever [aligned_alloc] does, the only memory cells
    [posix_memalign] can change are the [ptr_bytes] cells of the output
    slot, from [memptr] to [memptr + ptr_bytes - 1]; and when the status is
    nonzero it has changed no cell at all. *)
Theorem posix_memalign_frame `{Host}
    (memptr alignment size : Z) (w : World) :
  exists r w',
    posix_memalign memptr alignment size w = Some (r, w') /\
    (forall a, ~ (memptr <= a < memptr + ptr_bytes) ->
       mem w' !! a = mem w !! a) /\
    (r <> 0 -> mem w' = mem w).
Proof.
  destruct (aligned_alloc alignment size (errno w) (host w))
    as [[p e] h] eqn:Ea.
  destruct (decide (p = NULL)) as [->|Hp].
  - eexists _, _. split; [by eapply posix_memalign_refused|done].
  - eexists _, _. split; [by eapply posix_memalign_allocated|].
    cbn [mem]. split; [|done].
    intros a Ha. by apply lookup_write_ptr_out.
Qed.

(** X6: when [aligned_alloc] returns the null pointer and leaves a nonzero
    [errno], [posix_memalign] returns that nonzero value and memory is
    unchanged. *)
Theorem posix_memalign_failure_with_errno `{Host}
    (memptr alignment size : Z) (w : World) (e : Z) (h : host_state) :
  aligned_alloc alignment size (errno w) (host w) = (NULL, e, h) ->
  e <> 0 ->
  exists r w',
    posix_memalign memptr alignment size w = Some (r, w') /\
    r = e /\ r <> 0 /\
    mem w' = mem w /\ errno w' = e /\ host w' = h.
Proof.
  intros Ea He. eexists _, _.
  split; [by eapply posix_memalign_refused|done].
Qed.

Lemma posix_memalign_failure_with_errno_witness :
  (@aligned_alloc SampleHost.sample 16 8192 (errno SampleHost.boot)
     (host SampleHost.boot)
   = (NULL, SampleHost.ENOMEM, host SampleHost.boot) /\
   SampleHost.ENOMEM <> 0) /\
  exists r w',
    @posix_memalign SampleHost.sample SampleHost.slot 16 8192 SampleHost.boot
    = Some (r, w') /\
    r = SampleHost.ENOMEM /\ r <> 0 /\
    mem w' = mem SampleHost.boot /\ errno w' = SampleHost.ENOMEM /\
    host w' = host SampleHost.boot.
Proof.
  assert (Ea : @aligned_alloc SampleHost.sample 16 8192
                 (errno SampleHost.boot) (host SampleHost.boot)
               = (NULL, SampleHost.ENOMEM, host SampleHost.boot))
    by reflexivity.
  assert (He : SampleHost.ENOMEM <> 0) by discriminate.
  split; [done|].
  exact (@posix_memalign_failure_with_errno SampleHost.sample
           SampleHost.slot 16 8192 SampleHost.boot _ _ Ea He).
Defined.

(** ** The shims together *)

(** X7: [errno] is shared by the two shims of [Stubs.c].  After a rejected
    [getentropy], a [posix_memalign] whose [aligned_alloc] returns the null
    pointer without assigning [errno] reports [EINVAL], the code left by
    the earlier call. *)
Theorem posix_memalign_reports_stale_errno `{Host}
    (fuel : nat) (buffer length memptr alignment size : Z) (w : World)
    (h : host_state) :
  buffer = NULL \/ 256 < length ->
  aligned_alloc alignment size EINVAL (host w) = (NULL, EINVAL, h) ->
  exists w',
    (getentropy fuel buffer length;;
     posix_memalign memptr alignment size) w = Some (EINVAL, w') /\
    mem w' = mem w.
Proof.
  intros Hbad Ea. eexists. split.
  - erewrite run_seq by (by apply getentropy_invalid).
    by eapply posix_memalign_refused.
  - done.
Qed.

Lemma posix_memalign_reports_stale_errno_witness :
  ((NULL = NULL \/ 256 < 8) /\
   @aligned_alloc SampleHost.sample 16 0 22 (host SampleHost.boot)
   = (NULL, 22, host SampleHost.boot)) /\
  exists w',
    (@getentropy SampleHost.sample 0 NULL 8;;
     @posix_memalign SampleHost.sample SampleHost.slot 16 0) SampleHost.boot
    = Some (22, w') /\
    mem w' = mem SampleHost.boot.
Proof.
  assert (Hbad : NULL = NULL \/ 256 < 8) by (left; reflexivity).
  assert (Ea : @aligned_alloc SampleHost.sample 16 0 22 (host SampleHost.boot)
               = (NULL, 22, host SampleHost.boot)) by reflexivity.
  split; [done|].
  exact (@posix_memalign_reports_stale_errno SampleHost.sample 0 NULL 8
           SampleHost.slot 16 0 SampleHost.boot _ Hbad Ea).
Defined.

(** X4: allocate, then fill.  When [posix_memalign] obtains a block [p] and
    [getentropy] then fills [length] bytes of it, the result is 0, the
    bytes of the block are the draws made after the allocation, [errno] is
    as [aligned_alloc] left it, and the output slot still holds [p] provided
    none of the [ptr_bytes] bytes of the slot lies inside the filled
    bytes. *)
Theorem posix_memalign_then_getentropy `{Host}
    (fuel : nat) (memptr alignment size length : Z) (w : World)
    (p e : Z) (h : host_state) :
  aligned_alloc alignment size (errno w) (host w) = (p, e, h) ->
  p <> NULL -> 0 <= length <= 256 ->
  (Z.to_nat length <= fuel)%nat ->
  memptr + ptr_bytes <= p \/ p + length <= memptr ->
  exists w',
    (posix_memalign memptr alignment size;; getentropy fuel p length) w
    = Some (0, w') /\
    load_ptr memptr (mem w') = Some p /\
    (forall i, 0 <= i < length ->
       mem w' !! (p + i) = Some (Vbyte (nth_draw (Z.to_nat i) h mod 256))) /\
    errno w' = e /\
    host w' = after_draws (Z.to_nat length) h.
Proof.
  intros Ea Hp Hlen Hfuel Hout. eexists. split.
  { erewrite run_seq by (by eapply posix_memalign_allocated).
    by apply getentropy_ok. }
  cbn [mem errno host]. split; [|split; [|done]].
  - rewrite <- (load_ptr_write_ptr memptr p (mem w)).
    apply load_ptr_ext. intros j Hj.
    destruct Hout as [Hbelow|Habove].
    + apply lookup_write_draws_below. lia.
    + apply lookup_write_draws_above. lia.
  - intros i Hi.
    replace i with (Z.of_nat (Z.to_nat i)) at 1 by lia.
    apply lookup_write_draws_in. lia.
Qed.

Lemma posix_memalign_then_getentropy_witness :
  (@aligned_alloc SampleHost.sample 16 64 (errno SampleHost.boot)
     (host SampleHost.boot)
   = (536870912, 0, SampleHost.mkState 1 536870976 536875008 0) /\
   536870912 <> NULL /\ 0 <= 64 <= 256 /\ (Z.to_nat 64 <= 64)%nat /\
   (SampleHost.slot + 4 <= 536870912 \/ 536870912 + 64 <= SampleHost.slot)) /\
  exists w',
    (@posix_memalign SampleHost.sample SampleHost.slot 16 64;;
     @getentropy SampleHost.sample 64 536870912 64) SampleHost.boot
    = Some (0, w') /\
    @load_ptr SampleHost.sample SampleHost.slot (mem w') = Some 536870912 /\
    (forall i, 0 <= i < 64 ->
       mem w' !! (536870912 + i)
       = Some (Vbyte (@nth_draw SampleHost.sample (Z.to_nat i)
                        (SampleHost.mkState 1 536870976 536875008 0)
                      mod 256))) /\
    errno w' = 0 /\
    host w' = @after_draws SampleHost.sample (Z.to_nat 64)
                (SampleHost.mkState 1 536870976 536875008 0).
Proof.
  assert (Ea : @aligned_alloc SampleHost.sample 16 64 (errno SampleHost.boot)
                 (host SampleHost.boot)
               = (536870912, 0, SampleHost.mkState 1 536870976 536875008 0))
    by reflexivity.
  assert (Hp : 536870912 <> NULL) by discriminate.
  assert (Hlen : 0 <= 64 <= 256) by lia.
  assert (Hfuel : (Z.to_nat 64 <= 64)%nat) by (vm_compute; lia).
  assert (Hout : SampleHost.slot + 4 <= 536870912
                 \/ 536870912 + 64 <= SampleHost.slot)
    by (left; unfold SampleHost.slot; lia).
  split; [done|].
  exact (@posix_memalign_then_getentropy SampleHost.sample 64
           SampleHost.slot 16 64 64 SampleHost.boot _ _ _
           Ea Hp Hlen Hfuel Hout).
Defined.
